(** * The OPA enforcement gate of the FastAPI service

    A shallow embedding of [app/adapters/opa_adapter.py] and
    [app/infrastructure/middleware.py]: the Python values the two functions
    handle, the effects they perform (one outbound HTTP POST, one call of the
    downstream handler, raised exceptions), and the properties of the
    request pipeline. *)

From Stdlib Require Import ZArith String Ascii List Bool Lia.
From Stdlib Require Import Floats.SpecFloat.
From stdpp Require Import base option list strings gmap.

Import ListNotations.
Local Open Scope string_scope.
Local Open Scope Z_scope.
#[local] Set Warnings "-register-all".

(** ** Python values *)

Module Py.

(** The values [response.json()] can return and that the gate assembles for
    the decision query: [None], [bool], [int], [float], [str], [list] and
    [dict] with string keys. *)
Inductive pyval : Type :=
| PyNone
| PyBool (b : bool)
| PyInt (z : Z)
| PyFloat (f : spec_float)
| PyStr (s : string)
| PyList (l : list pyval)
| PyDict (d : gmap string pyval).

(** [type(v).__name__], as it shows in an [AttributeError]. *)
Definition type_name (v : pyval) : string :=
  match v with
  | PyNone => "NoneType"
  | PyBool _ => "bool"
  | PyInt _ => "int"
  | PyFloat _ => "float"
  | PyStr _ => "str"
  | PyList _ => "list"
  | PyDict _ => "dict"
  end.

(** [bool(v)]: what [not is_allowed] and [if roles_header] test. *)
Definition truthy (v : pyval) : bool :=
  match v with
  | PyNone => false
  | PyBool b => b
  | PyInt z => negb (z =? 0)
  | PyFloat f => match f with S754_zero _ => false | _ => true end
  | PyStr s => negb (String.eqb s "")
  | PyList l => match l with [] => false | _ :: _ => true end
  | PyDict d => negb (bool_decide (d = ∅))
  end.

(** [s.startswith(p)]. *)
Definition startswith (s p : string) : bool := String.prefix p s.

(** [s.split(sep)] for a separator of one character, which is what both call
    sites pass ([","] and ["/"]): the pieces between the separators, empty
    pieces kept, so the result has one more element than [s] has separators. *)
Fixpoint split (sep : ascii) (s : string) : list string :=
  match s with
  | EmptyString => [EmptyString]
  | String c rest =>
      if Ascii.eqb c sep then EmptyString :: split sep rest
      else match split sep rest with
           | [] => [String c EmptyString]
           | piece :: pieces => String c piece :: pieces
           end
  end.

(** [sep.join(pieces)], the inverse of [split]. *)
Fixpoint join (sep : ascii) (pieces : list string) : string :=
  match pieces with
  | [] => EmptyString
  | [p] => p
  | p :: ps => p ++ String sep (join sep ps)
  end.

(** [c in s] for a character. *)
Fixpoint contains (c : ascii) (s : string) : bool :=
  match s with
  | EmptyString => false
  | String c' rest => Ascii.eqb c' c || contains c rest
  end.

(** [s.lower()] on ASCII letters. *)
Definition lower_ascii (c : ascii) : ascii :=
  let n := nat_of_ascii c in
  if ((65 <=? n) && (n <=? 90))%nat then ascii_of_nat (n + 32) else c.

Fixpoint lower (s : string) : string :=
  match s with
  | EmptyString => EmptyString
  | String c rest => String (lower_ascii c) (lower rest)
  end.

(** [s.count(c)] for a character. *)
Fixpoint count (c : ascii) (s : string) : nat :=
  match s with
  | EmptyString => 0%nat
  | String c' rest => ((if Ascii.eqb c' c then 1 else 0) + count c rest)%nat
  end.

End Py.

(** ** Exceptions *)

(** A raised exception: its class name, whether the class derives from
    [Exception] (an [asyncio.CancelledError] or [KeyboardInterrupt] does not,
    and [except Exception] lets it pass), [str(e)], and the exception that was
    being handled when it was raised ([__context__]). *)
Inductive pyexc : Type :=
| PyExc (cls : string) (derives_Exception : bool) (text : string)
        (context : option pyexc).

Definition is_Exception (e : pyexc) : bool := let '(PyExc _ b _ _) := e in b.
Definition str (e : pyexc) : string := let '(PyExc _ _ t _) := e in t.

(** [raise Exception(msg)] inside the handler of [cause]. *)
Definition Exception (msg : string) (cause : pyexc) : pyexc :=
  PyExc "Exception" true msg (Some cause).

(** The error of [v.attr] on a value that has no such attribute. *)
Definition AttributeError (v : Py.pyval) (attr : string) : pyexc :=
  PyExc "AttributeError" true
    ("'" ++ Py.type_name v ++ "' object has no attribute '" ++ attr ++ "'") None.

(** ** The framework objects the two functions touch *)

Module starlette.

(** [request.headers]: the raw header list of the ASGI scope, names in lower
    case as the server delivers them. *)
Definition Headers : Type := list (string * string).

(** [headers.get(key, default)]: the value of the first header whose name is
    [key.lower()]. *)
Fixpoint get (h : Headers) (key default : string) : string :=
  match h with
  | [] => default
  | (name, value) :: rest =>
      if String.eqb name (Py.lower key) then value else get rest key default
  end.

(** A request as [dispatch] reads it: [request.method], [request.url.path],
    [request.url.query], [request.headers] and the body. [url_path] is the
    value the read of [request.url.path] returns; Starlette computes it from
    the scope's path and the [Host] header, and a request for which that read
    raises (a malformed [Host]) makes [dispatch] raise at its first line,
    before any effect: such a request is not a value of this record. *)
Record Request : Type := mkRequest {
  method : string;
  url_path : string;
  url_query : string;
  headers : Headers;
  body : string
}.

(** A response: status, body, and the headers its builder passed; the
    [content-length] the constructor derives from the body is not listed. *)
Record Response : Type := mkResponse {
  status_code : Z;
  content : string;
  resp_headers : list (string * string)
}.

(** [Response(content=c, status_code=s)], no headers given. *)
Definition Response_ (c : string) (s : Z) : Response := mkResponse s c [].

End starlette.

Module httpx.

(** The engine's reply as [check_permission] observes it: the status code,
    the message [raise_for_status] composes for it (from the status line and
    the URL), and what [response.json()] gives for the body, a decoded value
    or the decoder's exception. *)
Record Response : Type := mkResponse {
  status_code : Z;
  status_message : string;
  json_result : pyexc + Py.pyval
}.

(** [response.is_success]: a 2xx status. *)
Definition is_success (r : Response) : bool :=
  (200 <=? status_code r) && (status_code r <=? 299).

(** What [raise_for_status] raises when the status is not a success. *)
Definition HTTPStatusError (r : Response) : pyexc :=
  PyExc "HTTPStatusError" true (status_message r) None.

End httpx.

(** ** Effects *)

(** The two things the pipeline does to the outside: the POST of
    [self.client.post(url, json=...)], answered with a response or a raised
    exception, and [call_next(request)], answered with the downstream
    handler's response or its exception. *)
Inductive effect : Type -> Type :=
| HttpPost (url : string) (json : Py.pyval) : effect (pyexc + httpx.Response)
| CallNext (request : starlette.Request) : effect (pyexc + starlette.Response).

(** A coroutine: it returns, raises, or performs an effect and goes on with
    the answer. *)
Inductive prog (A : Type) : Type :=
| Ret (a : A)
| Raise (e : pyexc)
| Vis {X : Type} (ev : effect X) (k : X -> prog A).

Arguments Ret {A} a.
Arguments Raise {A} e.
Arguments Vis {A X} ev k.

Fixpoint bind {A B : Type} (p : prog A) (f : A -> prog B) : prog B :=
  match p with
  | Ret a => f a
  | Raise e => Raise e
  | Vis ev k => Vis ev (fun x => bind (k x) f)
  end.

#[global] Instance prog_ret : MRet prog := fun _ a => Ret a.
#[global] Instance prog_bind : MBind prog := fun _ _ f p => bind p f.

(** [try: p  except Exception as e: h e]: an exception that does not derive
    from [Exception] is not caught. *)
Fixpoint try_except {A : Type} (p : prog A) (h : pyexc -> prog A) : prog A :=
  match p with
  | Ret a => Ret a
  | Raise e => if is_Exception e then h e else Raise e
  | Vis ev k => Vis ev (fun x => try_except (k x) h)
  end.

(** The answer of an effect, raised when it is an exception. *)
Definition perform {A : Type} (ev : effect (pyexc + A)) : prog A :=
  Vis ev (fun a => match a with inl e => Raise e | inr x => Ret x end).

(** *** Running a coroutine against the outside world *)

Inductive event : Type :=
| EvPost (url : string) (json : Py.pyval)
| EvCallNext (request : starlette.Request).

Definition trace : Type := list event.

Definition log {X : Type} (ev : effect X) : event :=
  match ev with
  | HttpPost url json => EvPost url json
  | CallNext request => EvCallNext request
  end.

(** The world answers every effect; its answer may depend on everything that
    happened before (a policy engine that fails once and then recovers, a
    handler with state). *)
Record World : Type := mkWorld {
  engine : trace -> string -> Py.pyval -> pyexc + httpx.Response;
  handler : trace -> starlette.Request -> pyexc + starlette.Response
}.

Definition answer (w : World) (tr : trace) {X : Type} (ev : effect X) : X :=
  match ev in effect T return T with
  | HttpPost url json => engine w tr url json
  | CallNext request => handler w tr request
  end.

(** [run w tr p]: the events of [p] appended to [tr], and how [p] ends. *)
Fixpoint run {A : Type} (w : World) (tr : trace) (p : prog A) : trace * (pyexc + A) :=
  match p with
  | Ret a => (tr, inr a)
  | Raise e => (tr, inl e)
  | Vis ev k => run w (tr ++ [log ev])%list (k (answer w tr ev))
  end.

Definition is_post (ev : event) : bool :=
  match ev with EvPost _ _ => true | EvCallNext _ => false end.

Definition is_call_next (ev : event) : bool :=
  match ev with EvCallNext _ => true | EvPost _ _ => false end.

(** ** app/core/config.py *)

Module config.

Record Settings : Type := mkSettings {
  OPA_SERVER_URL : string;
  APP_NAME : string;
  DEBUG : bool;
  HOST : string;
  PORT : Z
}.

(** [Settings()] with no environment override. *)
Definition settings : Settings :=
  mkSettings "http://localhost:8181/v1/data/sample" "FastAPI with OPA" false
             "0.0.0.0" 8000.

End config.

(** ** app/adapters/opa_adapter.py *)

Module opa_adapter.

(** [OPAAdapter]: the URL it was built with; its [httpx.AsyncClient] is the
    [HttpPost] effect. *)
Record OPAAdapter : Type := mkOPAAdapter { opa_url : string }.

(** [await self.client.post(url, json=json)]. *)
Definition post (url : string) (json : Py.pyval) : prog httpx.Response :=
  perform (HttpPost url json).

(** [response.raise_for_status()]. *)
Definition raise_for_status (response : httpx.Response) : prog unit :=
  if httpx.is_success response then Ret tt
  else Raise (httpx.HTTPStatusError response).

(** [response.json()]. *)
Definition json (response : httpx.Response) : prog Py.pyval :=
  match httpx.json_result response with
  | inl e => Raise e
  | inr v => Ret v
  end.

(** [v.get(key, default)]: a [dict] method; every other decoded value has no
    attribute [get]. *)
Definition get (v : Py.pyval) (key : string) (default : Py.pyval) : prog Py.pyval :=
  match v with
  | Py.PyDict d => Ret (from_option id default (d !! key))
  | _ => Raise (AttributeError v "get")
  end.

(** The [except] branch: [raise Exception(f"OPA policy check failed: {str(e)}")]. *)
Definition policy_check_failed (e : pyexc) : pyexc :=
  Exception ("OPA policy check failed: " ++ str e) e.

Definition check_permission (self : OPAAdapter) (input_data : Py.pyval) : prog Py.pyval :=
  try_except
    (response ← post (opa_url self) (Py.PyDict {[ "input" := input_data ]});
     _ ← raise_for_status response;
     result ← json response;
     inner ← get result "result" (Py.PyDict ∅);
     get inner "allow" (Py.PyBool false))
    (fun e => Raise (policy_check_failed e)).

End opa_adapter.

(** ** app/infrastructure/middleware.py *)

Module middleware.

Import starlette.

Record OPAMiddleware : Type := mkOPAMiddleware {
  opa_adapter : opa_adapter.OPAAdapter
}.

(** [await call_next(request)]. *)
Definition call_next (request : Request) : prog Response :=
  perform (CallNext request).

Definition dispatch (self : OPAMiddleware) (request : Request) : prog Response :=
  (* Skip OPA check for health endpoints *)
  if Py.startswith (url_path request) "/health" then call_next request
  else
    (* Extract roles from header *)
    let roles_header := get (headers request) "USER_ROLES" "" in
    let roles := if Py.truthy (Py.PyStr roles_header)
                 then Py.split "," roles_header else [] in
    (* Prepare OPA input *)
    let opa_input :=
      Py.PyDict {[ "path" := Py.PyList (Py.PyStr <$> Py.split "/" (url_path request));
                   "roles" := Py.PyList (Py.PyStr <$> roles);
                   "method" := Py.PyStr (method request) ]} in
    (* Check permission *)
    is_allowed ← opa_adapter.check_permission (opa_adapter self) opa_input;
    if negb (Py.truthy is_allowed) then Ret (Response_ "Unauthorized" 401)
    else call_next request.

(** The values [dispatch] binds on its way to the policy check, as functions
    of the request: [roles_header], [roles] and [opa_input]. *)
Definition roles_header (request : Request) : string :=
  get (headers request) "USER_ROLES" "".

Definition roles_of (request : Request) : list string :=
  if Py.truthy (Py.PyStr (roles_header request))
  then Py.split "," (roles_header request) else [].

Definition opa_input_of (request : Request) : Py.pyval :=
  Py.PyDict {[ "path" := Py.PyList (Py.PyStr <$> Py.split "/" (url_path request));
               "roles" := Py.PyList (Py.PyStr <$> roles_of request);
               "method" := Py.PyStr (method request) ]}.

End middleware.

(** ** app/main.py *)

Module main.

Definition opa_adapter : opa_adapter.OPAAdapter :=
  opa_adapter.mkOPAAdapter (config.OPA_SERVER_URL config.settings).

(** [app.add_middleware(OPAMiddleware, opa_adapter=opa_adapter)]. *)
Definition gate : middleware.OPAMiddleware := middleware.mkOPAMiddleware opa_adapter.

(** The paths of the two health routes declared on the application. *)
Definition health_routes : list string := ["/health/liveness"; "/health/readiness"].

End main.

(** ** app/infrastructure/routes.py *)

Module routes.

(** [APIRouter(prefix="/v1", ...)]. *)
Definition prefix : string := "/v1".

(** The body of the GET route [/admin/users/{userName}]. *)
Definition get_users (userName : string) : string :=
  "Hello!! " ++ userName ++ " You have reached the Get Users".

(** The body of the POST route [/admin/users/{userName}]. *)
Definition update_users (userName : string) : string :=
  "Hello!! " ++ userName ++ " You have access to edits".

End routes.

(** ** What a run shows *)

Definition events {A : Type} (w : World) (p : prog A) : trace := fst (run w [] p).
Definition outcome {A : Type} (w : World) (p : prog A) : pyexc + A := snd (run w [] p).

(** The POSTs to the policy engine and the calls of the downstream handler
    among the events. *)
Definition policy_calls (tr : trace) : trace := filter is_post tr.
Definition handler_calls (tr : trace) : trace := filter is_call_next tr.

(** The shape the adapter expects of the engine's answer:
    [{"result": {"allow": <bool>}}]. *)
Definition expected_shape (v : Py.pyval) : Prop :=
  exists d d' b, v = Py.PyDict d /\ d !! "result" = Some (Py.PyDict d') /\
                 d' !! "allow" = Some (Py.PyBool b).

(** The JSON body [check_permission] posts for a decision query. *)
Definition envelope (input : Py.pyval) : Py.pyval := Py.PyDict {[ "input" := input ]}.

Definition is_dict (v : Py.pyval) : bool :=
  match v with Py.PyDict _ => true | _ => false end.

(** How the engine's answer can be a failure, with its underlying cause: the
    call raised, the status is not a success, the body does not decode, or the
    decoded body (or its [result] member) is not an object. *)
Inductive engine_failure : pyexc + httpx.Response -> pyexc -> Prop :=
| transport_failure (e : pyexc) :
    is_Exception e = true -> engine_failure (inl e) e
| status_failure (r : httpx.Response) :
    httpx.is_success r = false ->
    engine_failure (inr r) (httpx.HTTPStatusError r)
| decode_failure (r : httpx.Response) (e : pyexc) :
    httpx.is_success r = true -> httpx.json_result r = inl e ->
    is_Exception e = true -> engine_failure (inr r) e
| body_not_object (r : httpx.Response) (v : Py.pyval) :
    httpx.is_success r = true -> httpx.json_result r = inr v ->
    is_dict v = false -> engine_failure (inr r) (AttributeError v "get")
| result_not_object (r : httpx.Response) (d : gmap string Py.pyval) (v : Py.pyval) :
    httpx.is_success r = true -> httpx.json_result r = inr (Py.PyDict d) ->
    d !! "result" = Some v -> is_dict v = false ->
    engine_failure (inr r) (AttributeError v "get").

(** [v[key]] on a decoded object, [None] where Python raises. *)
Definition member (v : Py.pyval) (key : string) : option Py.pyval :=
  match v with Py.PyDict d => d !! key | _ => None end.

(** The decision queries the engine was sent: the [input] member of the body
    of every POST among the events. *)
Definition posted_queries (tr : trace) : list Py.pyval :=
  omap (fun ev => match ev with
                  | EvPost _ body => member body "input"
                  | EvCallNext _ => None
                  end) tr.

(** ** Scenarios *)

Module scenario.

Import starlette.

Definition get_bob : Request :=
  mkRequest "GET" "/v1/admin/users/bob" "" [("user_roles", "admin")] "".

Definition get_liveness : Request :=
  mkRequest "GET" "/health/liveness" "" [] "".

Definition post_healthz : Request :=
  mkRequest "POST" "/healthz" "" [("user_roles", "guest")] "".

Definition get_alice_with_roles (roles : string) : Request :=
  mkRequest "GET" "/v1/admin/users/alice" "" [("host", "localhost"); ("user_roles", roles)] "".

(** The application behind the gate: the two health routes of [main.py] and
    the user routes of [routes.py]; here only what they return for the
    requests above (bodies written with ['] for the JSON quote). *)
Definition app (request : Request) : pyexc + Response :=
  if String.eqb (url_path request) "/health/liveness"
  then inr (mkResponse 200 "{'status':'alive'}" [("content-type", "application/json")])
  else if String.eqb (url_path request) "/v1/admin/users/bob"
  then inr (mkResponse 200 "Hello!! bob You have reached the Get Users"
                       [("content-type", "text/plain; charset=utf-8")])
  else inr (mkResponse 404 "{'detail':'Not Found'}" [("content-type", "application/json")]).

(** A policy engine that answers every query with status 200 and the JSON
    value [v]. *)
Definition engine_answers (v : Py.pyval) : World :=
  mkWorld (fun _ _ _ => inr (httpx.mkResponse 200 "" (inr v)))
          (fun _ request => app request).

Definition allow (v : Py.pyval) : Py.pyval :=
  Py.PyDict {[ "result" := Py.PyDict {[ "allow" := v ]} ]}.

Definition ConnectError : pyexc :=
  PyExc "ConnectError" true "All connection attempts failed" None.

(** A policy engine that refuses the connection. *)
Definition engine_down : World :=
  mkWorld (fun _ _ _ => inl ConnectError) (fun _ request => app request).

(** A policy engine that answers with status 500. *)
Definition reply_500 : httpx.Response :=
  httpx.mkResponse 500 "Server error '500 Internal Server Error'" (inr (Py.PyDict ∅)).

Definition engine_500 : World :=
  mkWorld (fun _ _ _ => inr reply_500) (fun _ request => app request).

Definition CancelledError : pyexc := PyExc "CancelledError" false "" None.

(** A request cancelled while the POST is awaited. *)
Definition engine_cancelled : World :=
  mkWorld (fun _ _ _ => inl CancelledError) (fun _ request => app request).

Definition RuntimeError : pyexc := PyExc "RuntimeError" true "handler failed" None.

(** An engine that allows everything in front of a handler that raises. *)
Definition app_crashes : World :=
  mkWorld (fun _ _ _ => inr (httpx.mkResponse 200 "" (inr (allow (Py.PyBool true)))))
          (fun _ _ => inl RuntimeError).

End scenario.

(** * Properties *)

(** ** The interpreter *)

Lemma run_bind {A B : Type} (w : World) (p : prog A) (f : A -> prog B) (tr : trace) :
  run w tr (p ≫= f) =
  match run w tr p with
  | (tr', inr a) => run w tr' (f a)
  | (tr', inl e) => (tr', inl e)
  end.
Proof.
  unfold mbind, prog_bind. revert tr.
  induction p as [a | e | X ev k IH]; intros tr; simpl; auto.
Qed.

Lemma run_try_except {A : Type} (w : World) (p : prog A) (h : pyexc -> prog A) (tr : trace) :
  run w tr (try_except p h) =
  match run w tr p with
  | (tr', inl e) => if is_Exception e then run w tr' (h e) else (tr', inl e)
  | r => r
  end.
Proof.
  revert tr. induction p as [a | e | X ev k IH]; intros tr; simpl; auto.
  destruct (is_Exception e); reflexivity.
Qed.

Lemma run_perform {A : Type} (w : World) (ev : effect (pyexc + A)) (tr : trace) :
  run w tr (perform ev) = ((tr ++ [log ev])%list, answer w tr ev).
Proof. unfold perform. simpl. destruct (answer w tr ev); reflexivity. Qed.

(** ** Splitting *)

Section Split.

Variable sep : ascii.

Lemma split_nonempty (s : string) : Py.split sep s <> [].
Proof.
  destruct s as [| c rest]; simpl; [discriminate |].
  destruct (Ascii.eqb c sep); [discriminate |].
  destruct (Py.split sep rest); discriminate.
Qed.

Lemma join_cons (p : string) (ps : list string) :
  ps <> [] -> Py.join sep (p :: ps) = p ++ String sep (Py.join sep ps).
Proof. destruct ps; [congruence | reflexivity]. Qed.

Lemma join_cons_char (c : ascii) (p : string) (ps : list string) :
  Py.join sep (String c p :: ps) = String c (Py.join sep (p :: ps)).
Proof. destruct ps; reflexivity. Qed.

(** Joining the pieces with the separator gives the string back. *)
Lemma join_split (s : string) : Py.join sep (Py.split sep s) = s.
Proof.
  induction s as [| c rest IH]; [reflexivity |].
  cbn [Py.split]. destruct (Ascii.eqb_spec c sep) as [-> | Hne].
  - rewrite join_cons by apply split_nonempty. rewrite IH. reflexivity.
  - destruct (Py.split sep rest) as [| piece pieces] eqn:E.
    + exfalso. exact (split_nonempty rest E).
    + rewrite join_cons_char, IH. reflexivity.
Qed.

(** No piece contains the separator. *)
Lemma split_pieces (s : string) :
  Forall (fun piece => Py.contains sep piece = false) (Py.split sep s).
Proof.
  induction s as [| c rest IH]; cbn [Py.split].
  - repeat constructor.
  - destruct (Ascii.eqb c sep) eqn:Hc.
    + constructor; [reflexivity | exact IH].
    + destruct (Py.split sep rest) as [| piece pieces]; [repeat constructor; simpl; now rewrite Hc |].
      inversion IH as [| ? ? Hp Hps]; subst.
      constructor; [| exact Hps]. simpl. rewrite Hc. exact Hp.
Qed.

Lemma split_piece_sep (p s : string) :
  Py.contains sep p = false ->
  Py.split sep (p ++ String sep s) = p :: Py.split sep s.
Proof.
  induction p as [| c p IH]; intros Hp; simpl.
  - rewrite Ascii.eqb_refl. reflexivity.
  - simpl in Hp. apply orb_false_iff in Hp as [Hc Hp].
    rewrite Hc, (IH Hp). reflexivity.
Qed.

Lemma split_piece (p : string) :
  Py.contains sep p = false -> Py.split sep p = [p].
Proof.
  induction p as [| c p IH]; intros Hp; simpl; [reflexivity |].
  simpl in Hp. apply orb_false_iff in Hp as [Hc Hp].
  rewrite Hc, (IH Hp). reflexivity.
Qed.

(** [split] is the only such decomposition. *)
Lemma split_join (pieces : list string) :
  pieces <> [] ->
  Forall (fun piece => Py.contains sep piece = false) pieces ->
  Py.split sep (Py.join sep pieces) = pieces.
Proof.
  induction pieces as [| p ps IH]; intros Hne Hall; [congruence |].
  inversion Hall as [| ? ? Hp Hps]; subst.
  destruct ps as [| q qs].
  - simpl. apply split_piece, Hp.
  - rewrite join_cons by discriminate.
    rewrite split_piece_sep by exact Hp.
    rewrite IH; [reflexivity | discriminate | exact Hps].
Qed.

(** A leading separator gives a leading empty piece. *)
Lemma split_leading_sep (s : string) :
  Py.split sep (String sep s) = "" :: Py.split sep s.
Proof. simpl. rewrite Ascii.eqb_refl. reflexivity. Qed.

End Split.

(** ** The policy client *)

Section PolicyClient.

Import opa_adapter.

Variable w : World.
Variable tr : trace.
Variable self : OPAAdapter.
Variable input_data : Py.pyval.

Let reply : pyexc + httpx.Response := engine w tr (opa_url self) (envelope input_data).
Let sent : trace := (tr ++ [EvPost (opa_url self) (envelope input_data)])%list.

Ltac unfold_client :=
  unfold check_permission, post, raise_for_status, json;
  rewrite run_try_except, run_bind, run_perform; simpl;
  fold (envelope input_data); fold reply; fold sent.

(** One POST, whatever the engine answers. *)
Lemma check_permission_events :
  fst (run w tr (check_permission self input_data)) = sent.
Proof.
  unfold_client.
  destruct reply as [e | r]; simpl.
  { destruct (is_Exception e); reflexivity. }
  rewrite run_bind. destruct (httpx.is_success r); simpl;
    [| reflexivity].
  rewrite run_bind. destruct (httpx.json_result r) as [e | v]; simpl.
  { destruct (is_Exception e); reflexivity. }
  rewrite run_bind. destruct v; simpl; try reflexivity.
  destruct (d !! "result") as [[]|]; simpl; reflexivity.
Qed.

Lemma check_permission_raised (e : pyexc) :
  reply = inl e ->
  snd (run w tr (check_permission self input_data)) =
  inl (if is_Exception e then policy_check_failed e else e).
Proof.
  intros E. unfold_client. rewrite E. simpl.
  destruct (is_Exception e); reflexivity.
Qed.

Lemma check_permission_bad_status (r : httpx.Response) :
  reply = inr r -> httpx.is_success r = false ->
  snd (run w tr (check_permission self input_data)) =
  inl (policy_check_failed (httpx.HTTPStatusError r)).
Proof.
  intros E S. unfold_client. rewrite E. simpl.
  rewrite run_bind, S. reflexivity.
Qed.

Lemma check_permission_json_raised (r : httpx.Response) (e : pyexc) :
  reply = inr r -> httpx.is_success r = true -> httpx.json_result r = inl e ->
  snd (run w tr (check_permission self input_data)) =
  inl (if is_Exception e then policy_check_failed e else e).
Proof.
  intros E S J. unfold_client. rewrite E. simpl.
  rewrite run_bind, S. simpl. rewrite run_bind, J. simpl.
  destruct (is_Exception e); reflexivity.
Qed.

(** With a success status and a decoded body [v], the verdict is what the two
    [get]s find in [v]. *)
Lemma check_permission_decoded (r : httpx.Response) (v : Py.pyval) :
  reply = inr r -> httpx.is_success r = true -> httpx.json_result r = inr v ->
  snd (run w tr (check_permission self input_data)) =
  match v with
  | Py.PyDict d =>
      match from_option id (Py.PyDict ∅) (d !! "result") with
      | Py.PyDict d' => inr (from_option id (Py.PyBool false) (d' !! "allow"))
      | v' => inl (policy_check_failed (AttributeError v' "get"))
      end
  | _ => inl (policy_check_failed (AttributeError v "get"))
  end.
Proof.
  intros E S J. unfold_client. rewrite E. simpl.
  rewrite run_bind, S. simpl. rewrite run_bind, J. simpl.
  rewrite run_bind. destruct v; simpl; try reflexivity.
  destruct (d !! "result") as [[]|]; simpl; reflexivity.
Qed.

End PolicyClient.

(** ** The enforcement gate *)

Section Gate.

Import starlette middleware.

Variable w : World.
Variable self : OPAMiddleware.
Variable request : Request.

(** The POST the gate causes for [request]. *)
Let query : event :=
  EvPost (opa_adapter.opa_url (opa_adapter self)) (envelope (opa_input_of request)).

(** The policy client's verdict on [request]. *)
Let verdict : pyexc + Py.pyval :=
  outcome w (opa_adapter.check_permission (opa_adapter self) (opa_input_of request)).

Lemma dispatch_health :
  Py.startswith (url_path request) "/health" = true ->
  run w [] (dispatch self request) = ([EvCallNext request], handler w [] request).
Proof.
  intros H. unfold dispatch. rewrite H. unfold call_next.
  rewrite run_perform. reflexivity.
Qed.

(** Every way a request outside the health prefix ends. *)
Lemma dispatch_checked :
  Py.startswith (url_path request) "/health" = false ->
  run w [] (dispatch self request) =
  match verdict with
  | inl e => ([query], inl e)
  | inr is_allowed =>
      if Py.truthy is_allowed
      then ([query; EvCallNext request], handler w [query] request)
      else ([query], inr (Response_ "Unauthorized" 401))
  end.
Proof.
  intros H. unfold dispatch. rewrite H. cbv zeta.
  change (Py.PyDict _) with (opa_input_of request). rewrite run_bind.
  unfold verdict, outcome.
  pose proof (check_permission_events w [] (opa_adapter self) (opa_input_of request)) as Hev.
  destruct (run w [] (opa_adapter.check_permission _ _)) as [tr' [e | v]];
    simpl in Hev |- *; subst tr'; fold query.
  - reflexivity.
  - destruct (Py.truthy v); cbn [negb].
    + unfold call_next. rewrite run_perform. reflexivity.
    + reflexivity.
Qed.

(** The POSTs of a request outside the health prefix, and the query in them. *)
Lemma dispatch_posts :
  Py.startswith (url_path request) "/health" = false ->
  policy_calls (events w (dispatch self request)) = [query].
Proof.
  intros H. unfold events. rewrite (dispatch_checked H).
  destruct verdict as [e | v]; [reflexivity |].
  destruct (Py.truthy v); reflexivity.
Qed.

Lemma dispatch_posted_query :
  Py.startswith (url_path request) "/health" = false ->
  posted_queries (events w (dispatch self request)) = [opa_input_of request].
Proof.
  intros H. unfold events. rewrite (dispatch_checked H).
  assert (Hin : member (envelope (opa_input_of request)) "input"
                = Some (opa_input_of request)) by apply lookup_singleton_eq.
  destruct verdict as [e | v]; [| destruct (Py.truthy v)];
    unfold posted_queries, query; cbn [fst omap list_omap]; rewrite Hin; reflexivity.
Qed.

End Gate.

(** ** Claims about the gate *)

Import starlette middleware.

Lemma startswith_spec (s p : string) :
  Py.startswith s p = true <-> exists rest, s = p ++ rest.
Proof.
  unfold Py.startswith. revert s.
  induction p as [| a p IH]; intros s.
  - split; [intros _; exists s; reflexivity | intros _; destruct s; reflexivity].
  - destruct s as [| b s]; simpl.
    + split; [discriminate | intros [rest H]; discriminate].
    + destruct (ascii_dec a b) as [-> | Hne].
      * rewrite IH. split; intros [rest H]; exists rest.
        -- change (String b s = String b (p ++ rest)). congruence.
        -- change (String b s = String b (p ++ rest)) in H. congruence.
      * split; [discriminate | intros [rest H]].
        change (String b s = String a (p ++ rest)) in H. congruence.
Qed.

(** C5. A request whose path starts with the health prefix is handed to the
    downstream handler at once, whatever its method and headers: the only
    event of the run is the call of the handler with that request, no POST
    to the policy engine occurs, and the gate ends as the handler does. *)
Theorem health_request_skips_policy (w : World) (self : OPAMiddleware) (request : Request) :
  Py.startswith (url_path request) "/health" = true ->
  events w (dispatch self request) = [EvCallNext request] /\
  policy_calls (events w (dispatch self request)) = [] /\
  outcome w (dispatch self request) = handler w [] request.
Proof.
  intros H. unfold events, outcome. rewrite (dispatch_health w self request H).
  repeat split.
Qed.

Lemma health_request_skips_policy_witness :
  Py.startswith (url_path scenario.get_liveness) "/health" = true /\
  (events scenario.engine_down (dispatch main.gate scenario.get_liveness)
     = [EvCallNext scenario.get_liveness] /\
   policy_calls (events scenario.engine_down (dispatch main.gate scenario.get_liveness)) = [] /\
   outcome scenario.engine_down (dispatch main.gate scenario.get_liveness)
     = handler scenario.engine_down [] scenario.get_liveness).
Proof.
  split; [reflexivity |].
  apply (health_request_skips_policy scenario.engine_down main.gate scenario.get_liveness).
  reflexivity.
Defined.

(** C10. The bypass is a test on the first characters of the path: a request
    is handed to the handler without any POST to the policy engine exactly
    when its path is ["/health"] followed by anything. ["/healthz"] and
    ["/healthcheck"] are such paths although neither is a declared health
    route. *)
Theorem health_bypass_is_prefix_test (w : World) (self : OPAMiddleware) (request : Request) :
  ((exists rest, url_path request = "/health" ++ rest) <->
   policy_calls (events w (dispatch self request)) = []) /\
  ((exists rest, url_path request = "/health" ++ rest) ->
   run w [] (dispatch self request) = ([EvCallNext request], handler w [] request)) /\
  Forall (fun path => (exists rest, path = "/health" ++ rest) /\ path ∉ main.health_routes)
         ["/healthz"; "/healthcheck"].
Proof.
  split; [| split].
  - rewrite <- startswith_spec. unfold events.
    destruct (Py.startswith (url_path request) "/health") eqn:H.
    + rewrite (dispatch_health w self request H). split; reflexivity.
    + rewrite (dispatch_checked w self request H).
      split; [discriminate |].
      destruct (outcome w _) as [e | v]; [discriminate |].
      destruct (Py.truthy v); discriminate.
  - rewrite <- startswith_spec. apply dispatch_health.
  - repeat constructor.
    + exists "z". reflexivity.
    + unfold main.health_routes. rewrite !elem_of_cons, elem_of_nil.
      intros [H | [H | []]]; discriminate.
    + exists "check". reflexivity.
    + unfold main.health_routes. rewrite !elem_of_cons, elem_of_nil.
      intros [H | [H | []]]; discriminate.
Qed.

Lemma health_bypass_is_prefix_test_witness :
  run scenario.engine_down [] (dispatch main.gate scenario.post_healthz)
  = ([EvCallNext scenario.post_healthz], handler scenario.engine_down [] scenario.post_healthz).
Proof.
  apply (proj1 (proj2 (health_bypass_is_prefix_test scenario.engine_down main.gate
                                                    scenario.post_healthz))).
  exists "z". reflexivity.
Defined.

Lemma get_absent (h : Headers) (key default : string) :
  (forall value, ~ In (Py.lower key, value) h) -> get h key default = default.
Proof.
  induction h as [| [name value] rest IH]; intros Habs; simpl; [reflexivity |].
  destruct (String.eqb_spec name (Py.lower key)) as [-> | Hne].
  - exfalso. apply (Habs value). left. reflexivity.
  - apply IH. intros v Hin. apply (Habs v). right. exact Hin.
Qed.

Lemma opa_input_path (request : Request) :
  member (opa_input_of request) "path"
  = Some (Py.PyList (Py.PyStr <$> Py.split "/" (url_path request))).
Proof. unfold opa_input_of, member. apply lookup_insert_eq. Qed.

Lemma opa_input_roles (request : Request) :
  member (opa_input_of request) "roles"
  = Some (Py.PyList (Py.PyStr <$> roles_of request)).
Proof.
  unfold opa_input_of, member.
  rewrite lookup_insert_ne by discriminate. apply lookup_insert_eq.
Qed.

(** C6. The roles in the decision query that [dispatch] posts for a request
    (every request that is not bypassed causes one such query): none when the
    [USER_ROLES] header is absent, none when it is the empty string; from
    ["a,b"] the two roles [a] and [b], which as a set is [{a, b}] in either
    order; from ["a,,b"] a list that contains the empty string. *)
Theorem roles_from_header (w : World) (self : OPAMiddleware) (request : Request) :
  Py.startswith (url_path request) "/health" = false ->
  exists (query : Py.pyval) (roles : list string),
    posted_queries (events w (dispatch self request)) = [query] /\
    member query "roles" = Some (Py.PyList (Py.PyStr <$> roles)) /\
    ((forall value, ~ In ("user_roles", value) (headers request)) -> roles = []) /\
    (get (headers request) "USER_ROLES" "" = "" -> roles = []) /\
    (get (headers request) "USER_ROLES" "" = "a,b" ->
     roles = ["a"; "b"] /\ (list_to_set roles : gset string) = {[ "b"; "a" ]}) /\
    (get (headers request) "USER_ROLES" "" = "a,,b" ->
     roles = ["a"; ""; "b"] /\ In "" roles).
Proof.
  intros H. exists (opa_input_of request), (roles_of request).
  split; [exact (dispatch_posted_query w self request H) |].
  split; [apply opa_input_roles |].
  unfold roles_of, roles_header. repeat apply conj.
  - intros Habs.
    rewrite (get_absent (headers request) "USER_ROLES" "" Habs). reflexivity.
  - intros ->. reflexivity.
  - intros ->. split; [reflexivity |]. simpl. set_solver.
  - intros ->. split; [reflexivity |]. simpl. auto.
Qed.

Lemma roles_from_header_witness :
  exists query : Py.pyval,
    posted_queries (events scenario.engine_down
                           (dispatch main.gate (scenario.get_alice_with_roles "a,,b")))
    = [query] /\
    member query "roles" = Some (Py.PyList [Py.PyStr "a"; Py.PyStr ""; Py.PyStr "b"]).
Proof.
  destruct (roles_from_header scenario.engine_down main.gate
                              (scenario.get_alice_with_roles "a,,b") eq_refl)
    as (query & roles & Hposted & Hroles & _ & _ & _ & Hvalue).
  destruct (Hvalue eq_refl) as [-> _].
  exists query. split; [exact Hposted | exact Hroles].
Defined.

(** C7. The [path] member of the decision query that [dispatch] posts for a
    request is the list of the pieces of the request path between its
    slashes: joined with ["/"] they give the path back, none contains a
    slash, and a path that begins with a slash gives an empty first piece.
    For ["/v1/admin/users/alice"] the list is
    [["", "v1", "admin", "users", "alice"]]. *)
Theorem path_segments (w : World) (self : OPAMiddleware) (request : Request) :
  Py.startswith (url_path request) "/health" = false ->
  exists (query : Py.pyval) (segments : list string),
    posted_queries (events w (dispatch self request)) = [query] /\
    member query "path" = Some (Py.PyList (Py.PyStr <$> segments)) /\
    segments = Py.split "/" (url_path request) /\
    Py.join "/" segments = url_path request /\
    Forall (fun segment => Py.contains "/" segment = false) segments /\
    (forall rest, url_path request = String "/" rest ->
                  segments = "" :: Py.split "/" rest) /\
    (url_path request = "/v1/admin/users/alice" ->
     segments = [""; "v1"; "admin"; "users"; "alice"]).
Proof.
  intros H. exists (opa_input_of request), (Py.split "/" (url_path request)).
  split; [exact (dispatch_posted_query w self request H) |].
  split; [apply opa_input_path |].
  repeat apply conj.
  - reflexivity.
  - apply join_split.
  - apply split_pieces.
  - intros rest ->. apply split_leading_sep.
  - intros ->. reflexivity.
Qed.

Lemma path_segments_witness :
  exists query : Py.pyval,
    posted_queries (events scenario.engine_down
                           (dispatch main.gate (scenario.get_alice_with_roles "admin")))
    = [query] /\
    member query "path"
    = Some (Py.PyList (Py.PyStr <$> [""; "v1"; "admin"; "users"; "alice"])).
Proof.
  destruct (path_segments scenario.engine_down main.gate
                          (scenario.get_alice_with_roles "admin") eq_refl)
    as (query & segments & Hposted & Hpath & _ & _ & _ & _ & Hvalue).
  rewrite (Hvalue eq_refl) in Hpath.
  exists query. split; [exact Hposted | exact Hpath].
Defined.

(** C8. A request outside the health prefix causes exactly one POST, to the
    URL the adapter was configured with, and its JSON body is the object
    [{"input": {"path": segments, "roles": roles, "method": verb}}]; this
    holds for every engine, also one whose first answer is a failure, so
    nothing is retried. *)
Theorem one_policy_call (w : World) (self : OPAMiddleware) (request : Request) :
  Py.startswith (url_path request) "/health" = false ->
  policy_calls (events w (dispatch self request)) =
  [EvPost (opa_adapter.opa_url (opa_adapter self))
     (Py.PyDict {[ "input" :=
        Py.PyDict {[ "path" := Py.PyList (Py.PyStr <$> Py.split "/" (url_path request));
                     "roles" := Py.PyList (Py.PyStr <$> roles_of request);
                     "method" := Py.PyStr (method request) ]} ]})].
Proof.
  intros H. unfold events. rewrite (dispatch_checked w self request H).
  destruct (outcome w _) as [e | v]; [reflexivity |].
  destruct (Py.truthy v); reflexivity.
Qed.

Lemma one_policy_call_witness :
  Py.startswith (url_path scenario.get_bob) "/health" = false /\
  policy_calls (events scenario.engine_down (dispatch main.gate scenario.get_bob)) =
  [EvPost "http://localhost:8181/v1/data/sample"
     (Py.PyDict {[ "input" :=
        Py.PyDict {[ "path" := Py.PyList (Py.PyStr <$> [""; "v1"; "admin"; "users"; "bob"]);
                     "roles" := Py.PyList (Py.PyStr <$> ["admin"]);
                     "method" := Py.PyStr "GET" ]} ]})].
Proof.
  split; [reflexivity |].
  apply (one_policy_call scenario.engine_down main.gate scenario.get_bob).
  reflexivity.
Defined.

(** C9. When the policy client returns [True] (or any value that counts as
    true) for a request outside the health prefix, the gate calls the
    downstream handler with that same request, once, and ends exactly as the
    handler does: the handler's response, with its status, body and headers,
    is the gate's response. *)
Theorem allowed_request_passes_through (w : World) (self : OPAMiddleware) (request : Request)
        (is_allowed : Py.pyval) :
  Py.startswith (url_path request) "/health" = false ->
  outcome w (opa_adapter.check_permission (opa_adapter self) (opa_input_of request))
    = inr is_allowed ->
  Py.truthy is_allowed = true ->
  handler_calls (events w (dispatch self request)) = [EvCallNext request] /\
  outcome w (dispatch self request) =
    handler w [EvPost (opa_adapter.opa_url (opa_adapter self))
                      (envelope (opa_input_of request))] request.
Proof.
  intros H Hv Ht. unfold events at 1. unfold outcome at 1.
  rewrite (dispatch_checked w self request H), Hv, Ht. split; reflexivity.
Qed.

Lemma allowed_request_passes_through_witness :
  handler_calls (events (scenario.engine_answers (scenario.allow (Py.PyBool true)))
                        (dispatch main.gate scenario.get_bob))
    = [EvCallNext scenario.get_bob] /\
  outcome (scenario.engine_answers (scenario.allow (Py.PyBool true)))
          (dispatch main.gate scenario.get_bob)
    = inr (mkResponse 200 "Hello!! bob You have reached the Get Users"
                      [("content-type", "text/plain; charset=utf-8")]).
Proof.
  apply (allowed_request_passes_through
           (scenario.engine_answers (scenario.allow (Py.PyBool true)))
           main.gate scenario.get_bob (Py.PyBool true)); vm_compute; reflexivity.
Defined.




(** C1, as stated, fails when the policy client raises: with the engine
    refusing the connection, [check_permission] raises for [GET
    /v1/admin/users/bob], and [dispatch] ends with that exception, not with
    the 401 response. *)
Lemma engine_down_is_not_a_401 :
  Py.startswith (url_path scenario.get_bob) "/health" = false /\
  outcome scenario.engine_down
          (opa_adapter.check_permission (opa_adapter main.gate)
                                        (opa_input_of scenario.get_bob))
    = inl (opa_adapter.policy_check_failed scenario.ConnectError) /\
  outcome scenario.engine_down (dispatch main.gate scenario.get_bob)
    = inl (opa_adapter.policy_check_failed scenario.ConnectError) /\
  outcome scenario.engine_down (dispatch main.gate scenario.get_bob)
    <> inr (Response_ "Unauthorized" 401).
Proof.
  repeat apply conj; try (vm_compute; reflexivity).
  vm_compute. discriminate.
Qed.

(** C1, amended. For a request outside the health prefix: when the policy
    client returns a value that counts as false, the gate answers with status
    401 and body ["Unauthorized"] and the handler is not called; when the
    policy client raises, the gate builds no response, [dispatch] ends with
    the same exception, and the handler is not called either. *)
Theorem denied_or_failed_is_not_forwarded (w : World) (self : OPAMiddleware) (request : Request) :
  Py.startswith (url_path request) "/health" = false ->
  (forall is_allowed,
     outcome w (opa_adapter.check_permission (opa_adapter self) (opa_input_of request))
       = inr is_allowed ->
     Py.truthy is_allowed = false ->
     outcome w (dispatch self request) = inr (mkResponse 401 "Unauthorized" []) /\
     handler_calls (events w (dispatch self request)) = []) /\
  (forall e,
     outcome w (opa_adapter.check_permission (opa_adapter self) (opa_input_of request))
       = inl e ->
     outcome w (dispatch self request) = inl e /\
     handler_calls (events w (dispatch self request)) = []).
Proof.
  intros H. split.
  - intros v Hv Hfalse. unfold events. unfold outcome at 1.
    rewrite (dispatch_checked w self request H), Hv, Hfalse. split; reflexivity.
  - intros e He. unfold events. unfold outcome at 1.
    rewrite (dispatch_checked w self request H), He. split; reflexivity.
Qed.

Lemma denied_or_failed_is_not_forwarded_witness :
  (outcome (scenario.engine_answers (scenario.allow (Py.PyBool false)))
           (dispatch main.gate scenario.get_bob)
     = inr (mkResponse 401 "Unauthorized" []) /\
   handler_calls (events (scenario.engine_answers (scenario.allow (Py.PyBool false)))
                         (dispatch main.gate scenario.get_bob)) = []) /\
  (outcome scenario.engine_500 (dispatch main.gate scenario.get_bob)
     = inl (opa_adapter.policy_check_failed (httpx.HTTPStatusError scenario.reply_500)) /\
   handler_calls (events scenario.engine_500 (dispatch main.gate scenario.get_bob)) = []).
Proof.
  split.
  - apply (proj1 (denied_or_failed_is_not_forwarded
                    (scenario.engine_answers (scenario.allow (Py.PyBool false)))
                    main.gate scenario.get_bob eq_refl) (Py.PyBool false));
      vm_compute; reflexivity.
  - apply (proj2 (denied_or_failed_is_not_forwarded
                    scenario.engine_500 main.gate scenario.get_bob eq_refl));
      vm_compute; reflexivity.
Defined.

(** C3, as stated, fails for a body that lacks the expected structure: when
    the engine answers 200 with the empty object [{}], [check_permission]
    does not raise, it returns [False]. *)
Lemma empty_object_is_not_an_error :
  ~ expected_shape (Py.PyDict ∅) /\
  outcome (scenario.engine_answers (Py.PyDict ∅))
          (opa_adapter.check_permission main.opa_adapter
                                        (opa_input_of scenario.get_bob))
    = inr (Py.PyBool false) /\
  ~ (exists e, outcome (scenario.engine_answers (Py.PyDict ∅))
                       (opa_adapter.check_permission main.opa_adapter
                                                     (opa_input_of scenario.get_bob))
               = inl e).
Proof.
  repeat apply conj.
  - intros (d & d' & b & Hd & Hres & _). injection Hd as <-.
    rewrite lookup_empty in Hres. discriminate.
  - vm_compute. reflexivity.
  - intros [e He]. vm_compute in He. discriminate.
Qed.

(** C3, amended. [check_permission] raises [Exception("OPA policy check
    failed: " + str(cause))], raised while handling [cause], when the POST
    raises an [Exception], when the status is not a success status, when
    [response.json()] raises an [Exception], and when the decoded body or its
    [result] member is not an object. In none of these cases does it return
    a value. *)
Theorem engine_failure_is_raised (w : World) (tr : trace) (self : opa_adapter.OPAAdapter)
        (input_data : Py.pyval) (cause : pyexc) :
  engine_failure (engine w tr (opa_adapter.opa_url self) (envelope input_data)) cause ->
  snd (run w tr (opa_adapter.check_permission self input_data))
    = inl (PyExc "Exception" true ("OPA policy check failed: " ++ str cause) (Some cause)).
Proof.
  remember (engine w tr (opa_adapter.opa_url self) (envelope input_data)) as reply eqn:Ha.
  symmetry in Ha. intros Hfail.
  destruct Hfail as [e He | r Hs | r e Hs Hj He | r v Hs Hj Hv | r d v Hs Hj Hd Hv].
  - rewrite (check_permission_raised w tr self input_data e Ha), He. reflexivity.
  - rewrite (check_permission_bad_status w tr self input_data r Ha Hs). reflexivity.
  - rewrite (check_permission_json_raised w tr self input_data r e Ha Hs Hj), He.
    reflexivity.
  - rewrite (check_permission_decoded w tr self input_data r v Ha Hs Hj).
    destruct v; try reflexivity. discriminate.
  - rewrite (check_permission_decoded w tr self input_data r _ Ha Hs Hj), Hd.
    simpl. destruct v; try reflexivity. discriminate.
Qed.

Lemma engine_failure_is_raised_witness :
  snd (run scenario.engine_down [] (opa_adapter.check_permission main.opa_adapter Py.PyNone))
    = inl (PyExc "Exception" true
                 "OPA policy check failed: All connection attempts failed"
                 (Some scenario.ConnectError)).
Proof.
  apply (engine_failure_is_raised scenario.engine_down [] main.opa_adapter Py.PyNone
                                  scenario.ConnectError).
  apply transport_failure. reflexivity.
Defined.




(** ** The gate and the policy client together *)

Section Pipeline.

Variable w : World.
Variable self : OPAMiddleware.
Variable request : Request.

Let query : event :=
  EvPost (opa_adapter.opa_url (opa_adapter self)) (envelope (opa_input_of request)).

Let reply : pyexc + httpx.Response :=
  engine w [] (opa_adapter.opa_url (opa_adapter self)) (envelope (opa_input_of request)).

Lemma check_permission_failure (cause : pyexc) :
  engine_failure reply cause ->
  outcome w (opa_adapter.check_permission (opa_adapter self) (opa_input_of request))
  = inl (opa_adapter.policy_check_failed cause).
Proof.
  unfold outcome. remember reply as a eqn:Ha. unfold reply in Ha. symmetry in Ha.
  intros Hfail.
  destruct Hfail as [e He | r Hs | r e Hs Hj He | r v Hs Hj Hv | r d v Hs Hj Hd Hv].
  - rewrite (check_permission_raised w [] _ _ e Ha), He. reflexivity.
  - rewrite (check_permission_bad_status w [] _ _ r Ha Hs). reflexivity.
  - rewrite (check_permission_json_raised w [] _ _ r e Ha Hs Hj), He. reflexivity.
  - rewrite (check_permission_decoded w [] _ _ r v Ha Hs Hj).
    destruct v; try reflexivity. discriminate.
  - rewrite (check_permission_decoded w [] _ _ r _ Ha Hs Hj), Hd.
    simpl. destruct v; try reflexivity. discriminate.
Qed.

(** X1. The engine's verdict is enforced: when the engine answers a request
    outside the health prefix with a success status and an object whose
    [result] object has an [allow] member, the request is forwarded (one POST,
    then one handler call, and the handler's answer is the gate's) if that
    member counts as true, and is answered 401 ["Unauthorized"] without any
    handler call if it counts as false. *)
Theorem engine_verdict_is_enforced (r : httpx.Response) (d d' : gmap string Py.pyval)
        (allow : Py.pyval) :
  Py.startswith (url_path request) "/health" = false ->
  reply = inr r ->
  httpx.is_success r = true ->
  httpx.json_result r = inr (Py.PyDict d) ->
  d !! "result" = Some (Py.PyDict d') ->
  d' !! "allow" = Some allow ->
  run w [] (dispatch self request) =
  if Py.truthy allow
  then ([query; EvCallNext request], handler w [query] request)
  else ([query], inr (mkResponse 401 "Unauthorized" [])).
Proof.
  intros H Ha Hs Hj Hd Hallow.
  rewrite (dispatch_checked w self request H). unfold outcome.
  rewrite (check_permission_decoded w [] _ _ r _ Ha Hs Hj), Hd. simpl.
  rewrite Hallow. reflexivity.
Qed.

(** X2. An undefined decision is a denial: when the engine answers a request
    outside the health prefix with a success status and an object that has no
    [result] member, or whose [result] object has no [allow] member, the gate
    answers 401 ["Unauthorized"] after its one POST and never calls the
    handler. *)
Theorem undefined_decision_is_denied (r : httpx.Response) (d : gmap string Py.pyval) :
  Py.startswith (url_path request) "/health" = false ->
  reply = inr r ->
  httpx.is_success r = true ->
  httpx.json_result r = inr (Py.PyDict d) ->
  (d !! "result" = None \/
   exists d', d !! "result" = Some (Py.PyDict d') /\ d' !! "allow" = None) ->
  run w [] (dispatch self request) = ([query], inr (mkResponse 401 "Unauthorized" [])).
Proof.
  intros H Ha Hs Hj Hd.
  rewrite (dispatch_checked w self request H). unfold outcome.
  rewrite (check_permission_decoded w [] _ _ r _ Ha Hs Hj).
  destruct Hd as [-> | (d' & -> & Hallow)]; simpl; [| rewrite Hallow]; reflexivity.
Qed.

(** X3. A broken engine stops the request with an exception: when the POST
    raises an [Exception], the status is not a success, the body does not
    decode, or the body or its [result] is not an object, [dispatch] performs
    its one POST and ends with [Exception("OPA policy check failed: ...")]
    built from that cause; it returns no response and never calls the
    handler. *)
Theorem engine_failure_stops_request (cause : pyexc) :
  Py.startswith (url_path request) "/health" = false ->
  engine_failure reply cause ->
  run w [] (dispatch self request) =
  ([query],
   inl (PyExc "Exception" true ("OPA policy check failed: " ++ str cause) (Some cause))).
Proof.
  intros H Hfail.
  rewrite (dispatch_checked w self request H), (check_permission_failure cause Hfail).
  reflexivity.
Qed.

(** X5. An exception that does not derive from [Exception] (a cancellation)
    raised by the POST is not wrapped: [dispatch] ends with that very
    exception after the POST, and the handler is not called. *)
Theorem cancellation_passes_unwrapped (e : pyexc) :
  Py.startswith (url_path request) "/health" = false ->
  reply = inl e ->
  is_Exception e = false ->
  run w [] (dispatch self request) = ([query], inl e).
Proof.
  intros H Ha He.
  rewrite (dispatch_checked w self request H). unfold outcome.
  rewrite (check_permission_raised w [] _ _ e Ha), He. reflexivity.
Qed.

(** X7. Once the path of the request is read, its effects are fixed in
    number and order: a path with the health prefix gives exactly one handler
    call and nothing else; any other path gives exactly one POST, which comes
    first, followed by at most one handler call. *)
Theorem dispatch_event_order :
  (Py.startswith (url_path request) "/health" = true ->
   events w (dispatch self request) = [EvCallNext request]) /\
  (Py.startswith (url_path request) "/health" = false ->
   events w (dispatch self request) = [query] \/
   events w (dispatch self request) = [query; EvCallNext request]).
Proof.
  unfold events. split; intros H.
  - rewrite (dispatch_health w self request H). reflexivity.
  - rewrite (dispatch_checked w self request H).
    destruct (outcome w _) as [e | v]; [left; reflexivity |].
    destruct (Py.truthy v); [right | left]; reflexivity.
Qed.

(** X6. Whenever the handler is called, the gate ends exactly as the handler
    does, with its response or with its exception: the gate neither alters a
    response nor catches a handler's error. The handler sees the request
    after the POSTs of this request. *)
Theorem handler_outcome_is_gate_outcome :
  handler_calls (events w (dispatch self request)) <> [] ->
  outcome w (dispatch self request)
  = handler w (policy_calls (events w (dispatch self request))) request.
Proof.
  unfold events, outcome.
  destruct (Py.startswith (url_path request) "/health") eqn:H.
  - rewrite (dispatch_health w self request H). reflexivity.
  - rewrite (dispatch_checked w self request H).
    destruct (outcome w _) as [e | v]; [intros Hne; contradiction Hne; reflexivity |].
    destruct (Py.truthy v); [reflexivity | intros Hne; contradiction Hne; reflexivity].
Qed.

End Pipeline.

Lemma engine_verdict_is_enforced_witness :
  run (scenario.engine_answers (scenario.allow (Py.PyStr "false"))) []
      (dispatch main.gate scenario.get_bob)
  = ([EvPost "http://localhost:8181/v1/data/sample"
             (envelope (opa_input_of scenario.get_bob));
      EvCallNext scenario.get_bob],
     inr (mkResponse 200 "Hello!! bob You have reached the Get Users"
                     [("content-type", "text/plain; charset=utf-8")])).
Proof.
  apply (engine_verdict_is_enforced
           (scenario.engine_answers (scenario.allow (Py.PyStr "false")))
           main.gate scenario.get_bob
           (httpx.mkResponse 200 "" (inr (scenario.allow (Py.PyStr "false"))))
           {[ "result" := Py.PyDict {[ "allow" := Py.PyStr "false" ]} ]}
           {[ "allow" := Py.PyStr "false" ]} (Py.PyStr "false"));
    reflexivity.
Defined.

Lemma undefined_decision_is_denied_witness :
  run (scenario.engine_answers (Py.PyDict ∅)) [] (dispatch main.gate scenario.get_bob)
  = ([EvPost "http://localhost:8181/v1/data/sample"
             (envelope (opa_input_of scenario.get_bob))],
     inr (mkResponse 401 "Unauthorized" [])).
Proof.
  apply (undefined_decision_is_denied
           (scenario.engine_answers (Py.PyDict ∅)) main.gate scenario.get_bob
           (httpx.mkResponse 200 "" (inr (Py.PyDict ∅))) ∅);
    try reflexivity.
  left. reflexivity.
Defined.

Lemma engine_failure_stops_request_witness :
  run scenario.engine_500 [] (dispatch main.gate scenario.get_bob)
  = ([EvPost "http://localhost:8181/v1/data/sample"
             (envelope (opa_input_of scenario.get_bob))],
     inl (PyExc "Exception" true
                "OPA policy check failed: Server error '500 Internal Server Error'"
                (Some (httpx.HTTPStatusError scenario.reply_500)))).
Proof.
  apply (engine_failure_stops_request scenario.engine_500 main.gate scenario.get_bob
           (httpx.HTTPStatusError scenario.reply_500)); [reflexivity |].
  apply status_failure. reflexivity.
Defined.

Lemma cancellation_passes_unwrapped_witness :
  run scenario.engine_cancelled [] (dispatch main.gate scenario.get_bob)
  = ([EvPost "http://localhost:8181/v1/data/sample"
             (envelope (opa_input_of scenario.get_bob))],
     inl scenario.CancelledError).
Proof.
  apply (cancellation_passes_unwrapped scenario.engine_cancelled main.gate
           scenario.get_bob scenario.CancelledError); reflexivity.
Defined.

Lemma handler_outcome_is_gate_outcome_witness :
  outcome scenario.app_crashes (dispatch main.gate scenario.get_bob)
  = handler scenario.app_crashes
            (policy_calls (events scenario.app_crashes (dispatch main.gate scenario.get_bob)))
            scenario.get_bob.
Proof.
  apply (handler_outcome_is_gate_outcome scenario.app_crashes main.gate scenario.get_bob).
  vm_compute. discriminate.
Defined.

(** ** More about the policy client *)

(** X4. Whatever goes wrong, the only exception deriving from [Exception]
    that leaves [check_permission] is the generic
    [Exception("OPA policy check failed: ...")], raised while handling a
    cause that itself derives from [Exception]: the class of the cause (an
    httpx error, a decoding error, an [AttributeError]) is never what the
    caller sees. *)
Theorem only_the_generic_exception_escapes (w : World) (tr : trace)
        (self : opa_adapter.OPAAdapter) (input_data : Py.pyval) (e : pyexc) :
  snd (run w tr (opa_adapter.check_permission self input_data)) = inl e ->
  is_Exception e = true ->
  exists cause,
    e = PyExc "Exception" true ("OPA policy check failed: " ++ str cause) (Some cause) /\
    is_Exception cause = true.
Proof.
  intros He Hexc.
  destruct (engine w tr (opa_adapter.opa_url self) (envelope input_data))
    as [e0 | r] eqn:Ha.
  - rewrite (check_permission_raised w tr self input_data e0 Ha) in He.
    destruct (is_Exception e0) eqn:H0; injection He as <-.
    + exists e0. split; [reflexivity | exact H0].
    + congruence.
  - destruct (httpx.is_success r) eqn:Hs.
    + destruct (httpx.json_result r) as [e1 | v] eqn:Hj.
      * rewrite (check_permission_json_raised w tr self input_data r e1 Ha Hs Hj) in He.
        destruct (is_Exception e1) eqn:H1; injection He as <-.
        -- exists e1. split; [reflexivity | exact H1].
        -- congruence.
      * rewrite (check_permission_decoded w tr self input_data r v Ha Hs Hj) in He.
        destruct v;
          try (injection He as <-; eexists; split; reflexivity).
        destruct (from_option id (Py.PyDict ∅) (d !! "result"));
          try (injection He as <-; eexists; split; reflexivity).
        discriminate.
    + rewrite (check_permission_bad_status w tr self input_data r Ha Hs) in He.
      injection He as <-. eexists. split; reflexivity.
Qed.

Lemma only_the_generic_exception_escapes_witness :
  exists cause,
    opa_adapter.policy_check_failed (AttributeError (Py.PyList []) "get")
    = PyExc "Exception" true ("OPA policy check failed: " ++ str cause) (Some cause) /\
    is_Exception cause = true.
Proof.
  apply (only_the_generic_exception_escapes
           (scenario.engine_answers (Py.PyList [])) [] main.opa_adapter Py.PyNone
           (opa_adapter.policy_check_failed (AttributeError (Py.PyList []) "get")));
    reflexivity.
Defined.

(** ** More about the decision query *)

Lemma split_length (sep : ascii) (s : string) :
  length (Py.split sep s) = S (Py.count sep s).
Proof.
  induction s as [| c rest IH]; [reflexivity |].
  cbn [Py.split Py.count]. destruct (Ascii.eqb c sep).
  - simpl. rewrite IH. reflexivity.
  - destruct (Py.split sep rest) as [| piece pieces]; simpl in *; congruence.
Qed.

Lemma split_app (sep : ascii) (a b : string) :
  Py.split sep (a ++ String sep b) = (Py.split sep a ++ Py.split sep b)%list.
Proof.
  induction a as [| c a IH].
  - change ("" ++ String sep b) with (String sep b).
    rewrite split_leading_sep. reflexivity.
  - change (String c a ++ String sep b) with (String c (a ++ String sep b)).
    cbn [Py.split]. rewrite IH. destruct (Ascii.eqb c sep); [reflexivity |].
    pose proof (split_nonempty sep a) as Hne.
    destruct (Py.split sep a) as [| piece pieces]; [congruence | reflexivity].
Qed.

Lemma roles_of_join (request : Request) :
  Py.join "," (roles_of request) = roles_header request.
Proof.
  unfold roles_of. simpl.
  destruct (String.eqb_spec (roles_header request) "") as [-> | Hne]; simpl.
  - reflexivity.
  - apply join_split.
Qed.

Lemma get_first (h1 h2 : Headers) (key value default : string) :
  (forall v, ~ In (Py.lower key, v) h1) ->
  get (h1 ++ (Py.lower key, value) :: h2)%list key default = value.
Proof.
  induction h1 as [| [name v] rest IH]; intros Habs; simpl.
  - rewrite String.eqb_refl. reflexivity.
  - destruct (String.eqb_spec name (Py.lower key)) as [-> | Hne].
    + exfalso. apply (Habs v). left. reflexivity.
    + apply IH. intros v' Hin. apply (Habs v'). right. exact Hin.
Qed.

#[local] Instance PyStr_inj : Inj (=) (=) Py.PyStr.
Proof. intros a b H. injection H as ->. reflexivity. Qed.

Lemma opa_input_of_eq (r1 r2 : Request) :
  opa_input_of r1 = opa_input_of r2 <->
  url_path r1 = url_path r2 /\ method r1 = method r2 /\
  roles_header r1 = roles_header r2.
Proof.
  split.
  - intros Heq.
    assert (Hm : forall key, member (opa_input_of r1) key = member (opa_input_of r2) key)
      by (intros key; rewrite Heq; reflexivity).
    pose proof (Hm "path") as Hpath. pose proof (Hm "roles") as Hroles.
    pose proof (Hm "method") as Hmethod. clear Hm Heq.
    rewrite !opa_input_path in Hpath. rewrite !opa_input_roles in Hroles.
    unfold opa_input_of, member in Hmethod.
    rewrite !(lookup_insert_ne _ "path" "method"),
            !(lookup_insert_ne _ "roles" "method"),
            !lookup_singleton_eq in Hmethod by discriminate.
    injection Hpath as Hpath. injection Hroles as Hroles. injection Hmethod as Hmethod.
    apply (inj (fmap Py.PyStr)) in Hpath. apply (inj (fmap Py.PyStr)) in Hroles.
    repeat apply conj.
    + rewrite <- (join_split "/" (url_path r1)), <- (join_split "/" (url_path r2)).
      rewrite Hpath. reflexivity.
    + exact Hmethod.
    + rewrite <- (roles_of_join r1), <- (roles_of_join r2), Hroles. reflexivity.
  - intros (Hpath & Hmethod & Hroles). unfold opa_input_of, roles_of.
    rewrite Hpath, Hmethod, Hroles. reflexivity.
Qed.

Section PostedQuery.

Variable w : World.
Variable self : OPAMiddleware.
Variable request : Request.

(** X8. The roles [dispatch] posts for a request outside the health prefix
    are the value of its [USER_ROLES] header cut at the commas and nothing
    more: joined with [","] they give the header value back (nothing is
    trimmed or dropped), no role contains a comma, the list is empty exactly
    when the header is empty or absent, and it is never the list of one empty
    role. *)
Theorem roles_round_trip :
  Py.startswith (url_path request) "/health" = false ->
  exists (query : Py.pyval) (roles : list string),
    posted_queries (events w (dispatch self request)) = [query] /\
    member query "roles" = Some (Py.PyList (Py.PyStr <$> roles)) /\
    Py.join "," roles = get (headers request) "USER_ROLES" "" /\
    Forall (fun role => Py.contains "," role = false) roles /\
    (roles = [] <-> get (headers request) "USER_ROLES" "" = "") /\
    roles <> [""].
Proof.
  intros H. exists (opa_input_of request), (roles_of request).
  split; [exact (dispatch_posted_query w self request H) |].
  split; [apply opa_input_roles |].
  pose proof (roles_of_join request) as Hj. fold (roles_header request).
  split; [exact Hj |]. split; [| split; [split |]].
  - unfold roles_of. destruct (Py.truthy _); [apply split_pieces | constructor].
  - intros Hnil. rewrite Hnil in Hj. symmetry. exact Hj.
  - intros Hempty. unfold roles_of. rewrite Hempty. reflexivity.
  - intros Hone. rewrite Hone in Hj.
    unfold roles_of in Hone. rewrite <- Hj in Hone. discriminate.
Qed.

(** X9. The query [dispatch] posts for a request outside the health prefix
    has one path segment more than the path has slashes, and, for a
    [USER_ROLES] header that is not empty, one role more than the header has
    commas. *)
Theorem segment_and_role_counts :
  Py.startswith (url_path request) "/health" = false ->
  exists (query : Py.pyval) (segments roles : list string),
    posted_queries (events w (dispatch self request)) = [query] /\
    member query "path" = Some (Py.PyList (Py.PyStr <$> segments)) /\
    member query "roles" = Some (Py.PyList (Py.PyStr <$> roles)) /\
    length segments = S (Py.count "/" (url_path request)) /\
    (get (headers request) "USER_ROLES" "" <> "" ->
     length roles = S (Py.count "," (get (headers request) "USER_ROLES" ""))).
Proof.
  intros H.
  exists (opa_input_of request), (Py.split "/" (url_path request)), (roles_of request).
  split; [exact (dispatch_posted_query w self request H) |].
  split; [apply opa_input_path |]. split; [apply opa_input_roles |].
  split; [apply split_length |].
  intros Hne. unfold roles_of, roles_header. simpl.
  destruct (String.eqb_spec (get (headers request) "USER_ROLES" "") "");
    [contradiction |].
  apply split_length.
Qed.

(** X10. Segments compose: for a path [p/q] outside the health prefix the
    path member of the query [dispatch] posts is the segments of [p] followed
    by the segments of [q]; so a trailing slash adds an empty last segment
    and a doubled slash an empty segment in the middle. *)
Theorem segments_compose (p q : string) :
  Py.startswith (url_path request) "/health" = false ->
  url_path request = p ++ "/" ++ q ->
  exists query : Py.pyval,
    posted_queries (events w (dispatch self request)) = [query] /\
    member query "path"
    = Some (Py.PyList (Py.PyStr <$> (Py.split "/" p ++ Py.split "/" q)%list)).
Proof.
  intros H Hpath. exists (opa_input_of request).
  split; [exact (dispatch_posted_query w self request H) |].
  rewrite opa_input_path, Hpath.
  change ("/" ++ q) with (String "/" q). rewrite split_app. reflexivity.
Qed.

(** X12. Only the first [user_roles] header of a request counts: for a
    request outside the health prefix, the roles [dispatch] posts are those
    of the first header named [user_roles]; headers with other names before
    it and any headers after it, further [user_roles] headers included, do
    not change them. *)
Theorem first_roles_header_wins (before after : Headers) (value : string) :
  Py.startswith (url_path request) "/health" = false ->
  headers request = (before ++ ("user_roles", value) :: after)%list ->
  (forall v, ~ In ("user_roles", v) before) ->
  exists query : Py.pyval,
    posted_queries (events w (dispatch self request)) = [query] /\
    member query "roles"
    = Some (Py.PyList (Py.PyStr <$> (if String.eqb value "" then []
                                     else Py.split "," value))).
Proof.
  intros H Hh Habs. exists (opa_input_of request).
  split; [exact (dispatch_posted_query w self request H) |].
  assert (Hv : roles_header request = value).
  { unfold roles_header. rewrite Hh.
    apply (get_first before after "USER_ROLES" value ""). exact Habs. }
  rewrite opa_input_roles. unfold roles_of. rewrite Hv. simpl.
  destruct (String.eqb value ""); reflexivity.
Qed.

End PostedQuery.

Lemma roles_round_trip_witness :
  exists (query : Py.pyval) (roles : list string),
    posted_queries (events scenario.engine_down
                           (dispatch main.gate (scenario.get_alice_with_roles " a, b")))
    = [query] /\
    member query "roles" = Some (Py.PyList (Py.PyStr <$> roles)) /\
    Py.join "," roles = " a, b".
Proof.
  destruct (roles_round_trip scenario.engine_down main.gate
                             (scenario.get_alice_with_roles " a, b") eq_refl)
    as (query & roles & Hposted & Hroles & Hjoin & _).
  exists query, roles. repeat split; assumption.
Defined.

Lemma segment_and_role_counts_witness :
  exists (query : Py.pyval) (segments : list string),
    posted_queries (events scenario.engine_down
                           (dispatch main.gate (scenario.get_alice_with_roles "a,b,c")))
    = [query] /\
    member query "path" = Some (Py.PyList (Py.PyStr <$> segments)) /\
    length segments = 5%nat.
Proof.
  destruct (segment_and_role_counts scenario.engine_down main.gate
                                    (scenario.get_alice_with_roles "a,b,c") eq_refl)
    as (query & segments & roles & Hposted & Hpath & _ & Hlen & _).
  exists query, segments. repeat split; assumption.
Defined.

Lemma segments_compose_witness :
  exists query : Py.pyval,
    posted_queries (events scenario.engine_down
                           (dispatch main.gate (mkRequest "GET" "/v1/admin//users/" "" [] "")))
    = [query] /\
    member query "path"
    = Some (Py.PyList (Py.PyStr <$> [""; "v1"; "admin"; ""; "users"; ""])).
Proof.
  apply (segments_compose scenario.engine_down main.gate
                          (mkRequest "GET" "/v1/admin//users/" "" [] "")
                          "/v1/admin" "/users/"); reflexivity.
Defined.

Lemma first_roles_header_wins_witness :
  exists query : Py.pyval,
    posted_queries
      (events scenario.engine_down
              (dispatch main.gate
                 (mkRequest "GET" "/v1/admin/users/bob" ""
                    [("host", "api"); ("user_roles", "viewer"); ("user_roles", "admin")]
                    "")))
    = [query] /\
    member query "roles" = Some (Py.PyList [Py.PyStr "viewer"]).
Proof.
  apply (first_roles_header_wins scenario.engine_down main.gate
           (mkRequest "GET" "/v1/admin/users/bob" ""
                      [("host", "api"); ("user_roles", "viewer"); ("user_roles", "admin")] "")
           [("host", "api")] [("user_roles", "admin")] "viewer").
  - reflexivity.
  - reflexivity.
  - intros v [H | []]. discriminate.
Defined.

(** X11. The POST [dispatch] performs depends on the request only through
    the three values it reads: two requests outside the health prefix cause
    the same POST if and only if [request.url.path], [request.method] and
    the value of the [USER_ROLES] header agree. So the body determines each
    of the three, and nothing else of a request reaches the engine except as
    far as it changes one of them. *)
Theorem query_determined_by (w1 w2 : World) (self : OPAMiddleware) (r1 r2 : Request) :
  Py.startswith (url_path r1) "/health" = false ->
  Py.startswith (url_path r2) "/health" = false ->
  policy_calls (events w1 (dispatch self r1)) = policy_calls (events w2 (dispatch self r2)) <->
  url_path r1 = url_path r2 /\ method r1 = method r2 /\
  get (headers r1) "USER_ROLES" "" = get (headers r2) "USER_ROLES" "".
Proof.
  intros H1 H2.
  rewrite (dispatch_posts w1 self r1 H1), (dispatch_posts w2 self r2 H2).
  fold (roles_header r1). fold (roles_header r2). rewrite <- opa_input_of_eq.
  split.
  - intros Heq.
    apply (f_equal (fun tr => head (posted_queries tr))) in Heq.
    unfold posted_queries, member, envelope in Heq. cbn [omap list_omap] in Heq.
    rewrite !lookup_singleton_eq in Heq. apply (inj Some), Heq.
  - intros ->. reflexivity.
Qed.

Lemma query_determined_by_witness :
  policy_calls (events scenario.engine_down (dispatch main.gate scenario.get_bob))
  = policy_calls (events (scenario.engine_answers Py.PyNone)
                         (dispatch main.gate
                            (mkRequest "GET" "/v1/admin/users/bob" "debug=1"
                                       [("host", "api"); ("user_roles", "admin")]
                                       "ignored"))).
Proof.
  apply (proj2 (query_determined_by scenario.engine_down (scenario.engine_answers Py.PyNone)
                  main.gate scenario.get_bob
                  (mkRequest "GET" "/v1/admin/users/bob" "debug=1"
                             [("host", "api"); ("user_roles", "admin")] "ignored")
                  eq_refl eq_refl)).
  repeat split.
Defined.

(** ** The application's wiring and its routes *)

(** X13. The application's gate asks the engine at the URL of the settings
    and nowhere else: every POST caused by a request has the URL
    [settings.OPA_SERVER_URL] and the body built from that request. *)
Theorem application_posts_to_settings_url (w : World) (request : Request)
        (url : string) (body : Py.pyval) :
  In (EvPost url body) (events w (dispatch main.gate request)) ->
  url = config.OPA_SERVER_URL config.settings /\
  body = envelope (opa_input_of request).
Proof.
  unfold events.
  destruct (Py.startswith (url_path request) "/health") eqn:H.
  - rewrite (dispatch_health w main.gate request H). intros [Heq | []]. discriminate.
  - rewrite (dispatch_checked w main.gate request H).
    destruct (outcome w _) as [e | v]; [| destruct (Py.truthy v)]; simpl;
      intros Hin; repeat (destruct Hin as [Hin | Hin]); try discriminate;
      try contradiction; injection Hin as <- <-; split; reflexivity.
Qed.

Lemma application_posts_to_settings_url_witness :
  "http://localhost:8181/v1/data/sample" = config.OPA_SERVER_URL config.settings /\
  envelope (opa_input_of scenario.get_bob) = envelope (opa_input_of scenario.get_bob).
Proof.
  apply (application_posts_to_settings_url scenario.engine_down scenario.get_bob
           "http://localhost:8181/v1/data/sample"
           (envelope (opa_input_of scenario.get_bob))).
  vm_compute. left. reflexivity.
Defined.

Lemma list_ascii_of_string_app (a b : string) :
  list_ascii_of_string (a ++ b)
  = (list_ascii_of_string a ++ list_ascii_of_string b)%list.
Proof.
  induction a as [| c a IH]; [reflexivity |].
  change (String c a ++ b) with (String c (a ++ b)). simpl. rewrite IH. reflexivity.
Qed.

Lemma list_ascii_of_string_inj (a b : string) :
  list_ascii_of_string a = list_ascii_of_string b -> a = b.
Proof.
  intros H. rewrite <- (string_of_list_ascii_of_string a),
                    <- (string_of_list_ascii_of_string b), H. reflexivity.
Qed.

Lemma greeting_inj (before after a b : string) :
  before ++ a ++ after = before ++ b ++ after -> a = b.
Proof.
  intros H. apply (f_equal list_ascii_of_string) in H.
  rewrite !list_ascii_of_string_app in H.
  apply app_inv_head, app_inv_tail in H. apply list_ascii_of_string_inj, H.
Qed.

(** X14. The greeting of each user route names its user unambiguously: two
    user names give the same text only if they are the same name, for the GET
    route and for the POST route; and no text of the GET route is a text of
    the POST route. *)
Theorem greetings_are_distinct (a b : string) :
  (routes.get_users a = routes.get_users b -> a = b) /\
  (routes.update_users a = routes.update_users b -> a = b) /\
  routes.get_users a <> routes.update_users b.
Proof.
  unfold routes.get_users, routes.update_users. repeat apply conj.
  - apply greeting_inj.
  - apply greeting_inj.
  - intros H. apply (f_equal list_ascii_of_string) in H.
    rewrite !list_ascii_of_string_app in H. apply app_inv_head in H.
    apply (f_equal (@List.rev ascii)) in H. rewrite !rev_app_distr in H.
    simpl in H. discriminate.
Qed.
